(** * Duct-wise shipping summary: a shallow embedding of [app.py]

    The development follows the layout of the program:

    - [Text]: the string primitives of Python that the helpers use
      ([str.strip], [str.upper], [str.split]) on ASCII text;
    - [Regex]: a small backtracking matcher for the fragment of [re] in which
      the six precompiled patterns of the program are written;
    - the cell values of a pandas frame ([pyval]), the helpers
      [extract_duct_no], [extract_unit_wbs], [detect_duct_prefix_for_block],
      [build_duct_key_column];
    - the loader [load_uploaded_excels] with its two kinds of errors;
    - the two reports [summarize_by_duct_vendor_po] and [build_master_sheet].

    Text is ASCII: a cell is a list of characters with codes below 128, where
    [str.upper], [str.isspace] and the classes [\d], [\s], [\w] of [re] are
    the ASCII ones.  pandas is modelled at the meaning its operations have on
    object columns (pandas 1.x and 2.x): [astype(str)] applies [str] to every
    element, missing values included; [groupby(...).apply] gives one result
    per group label; a sort on several columns is stable.  What the program
    only calls (the parsers of numbers and dates, the date format, the float
    sum) is taken from the library as it is, in the class [Pandas]. *)

From Stdlib Require Import Ascii String.
From Stdlib Require Import List ZArith NArith Bool Lia Arith Floats.
From Stdlib Require Import Permutation Sorted.
Import ListNotations.

Set Implicit Arguments.

(** ** Text *)

Definition text := list ascii.

Coercion list_ascii_of_string : string >-> list.

Module Text.

Definition code (c : ascii) : N := N_of_ascii c.

Definition between (lo hi : N) (c : ascii) : bool :=
  (lo <=? code c)%N && (code c <=? hi)%N.

Definition is_digit (c : ascii) : bool := between 48 57 c.
Definition is_upper (c : ascii) : bool := between 65 90 c.
Definition is_lower (c : ascii) : bool := between 97 122 c.

(** [str.isspace] on ASCII: TAB, LF, VT, FF, CR, the four separators
    FS, GS, RS, US and the blank. *)
Definition is_space (c : ascii) : bool :=
  between 9 13 c || between 28 31 c || (code c =? 32)%N.

(** [\w] on ASCII. *)
Definition is_word (c : ascii) : bool :=
  is_digit c || is_upper c || is_lower c || (code c =? 95)%N.

Definition upper_char (c : ascii) : ascii :=
  if is_lower c then ascii_of_N (code c - 32) else c.

Definition lower_char (c : ascii) : ascii :=
  if is_upper c then ascii_of_N (code c + 32) else c.

(** [s.upper()] *)
Definition upper (s : text) : text := map upper_char s.

Fixpoint lstrip_by (p : ascii -> bool) (s : text) : text :=
  match s with
  | [] => []
  | c :: t => if p c then lstrip_by p t else s
  end.

Definition rstrip_by (p : ascii -> bool) (s : text) : text :=
  rev (lstrip_by p (rev s)).

Definition strip_by (p : ascii -> bool) (s : text) : text :=
  rstrip_by p (lstrip_by p s).

(** [s.strip()] *)
Definition strip (s : text) : text := strip_by is_space s.

(** [s.strip(chars)] *)
Definition strip_chars (chars : text) (s : text) : text :=
  strip_by (fun c => existsb (Ascii.eqb c) chars) s.

(** [s.split(sep)] for a separator of one character: never empty. *)
Fixpoint split (sep : ascii) (s : text) : list text :=
  match s with
  | [] => [[]]
  | c :: t =>
      if Ascii.eqb c sep then [] :: split sep t
      else match split sep t with
           | h :: r => (c :: h) :: r
           | [] => [[c]]
           end
  end.

Fixpoint eqb (a b : text) : bool :=
  match a, b with
  | [], [] => true
  | x :: a', y :: b' => Ascii.eqb x y && eqb a' b'
  | _, _ => false
  end.

(** Sequences compare item by item, a proper prefix first. *)
Fixpoint lexc {A : Type} (c : A -> A -> comparison) (a b : list A) : comparison :=
  match a, b with
  | [], [] => Eq
  | [], _ :: _ => Lt
  | _ :: _, [] => Gt
  | x :: a', y :: b' =>
      match c x y with
      | Eq => lexc c a' b'
      | o => o
      end
  end.

(** Python compares strings by code point. *)
Definition cmp (a b : text) : comparison :=
  lexc (fun x y => (code x ?= code y)%N) a b.

Fixpoint prefixb (p s : text) : bool :=
  match p, s with
  | [], _ => true
  | x :: p', y :: s' => Ascii.eqb x y && prefixb p' s'
  | _ :: _, [] => false
  end.

(** [sub in s] *)
Fixpoint contains (sub s : text) : bool :=
  prefixb sub s ||
  match s with
  | [] => false
  | _ :: t => contains sub t
  end.

(** [int(s)] on a text of decimal digits. *)
Definition digit_val (c : ascii) : Z := Z.of_N (code c) - 48.

Definition int_of_digits (s : text) : Z :=
  fold_left (fun acc c => 10 * acc + digit_val c)%Z s 0%Z.

End Text.

(** ** Regular expressions

    The fragment of Python's [re] used by the program: literals, the classes
    [\d], [\s] and [[A-Z]], sequence, ordered alternation, greedy bounded or
    unbounded repetition of a class, one capturing group, the anchors [^],
    [$] and [\b], and the flag [IGNORECASE].  The matcher enumerates the
    matches at a position in the order in which a backtracking engine tries
    them, so the head of the list is the match that [re] returns. *)

Module Regex.
Import Text.

Inductive cls :=
| Digit                      (* \d *)
| Space                      (* \s *)
| Range (lo hi : ascii).     (* [lo-hi] *)

Inductive regex :=
| Chr (c : ascii)
| Cls (k : cls)
| Seq (a b : regex)
| Alt (a b : regex)
| Rep (k : cls) (lo : nat) (hi : option nat)  (* k{lo,hi}; k* is Rep k 0 None *)
| Grp (r : regex)                             (* ( r ), group 1 *)
| Bol                                         (* ^ *)
| Eol                                         (* $ *)
| Wordb.                                      (* \b *)

Definition in_range (lo hi c : ascii) : bool := between (code lo) (code hi) c.

Definition cls_match (ic : bool) (k : cls) (c : ascii) : bool :=
  match k with
  | Digit => is_digit c
  | Space => is_space c
  | Range lo hi =>
      in_range lo hi c
      || (ic && (in_range lo hi (upper_char c) || in_range lo hi (lower_char c)))
  end.

Definition chr_match (ic : bool) (c x : ascii) : bool :=
  if ic then Ascii.eqb (lower_char c) (lower_char x) else Ascii.eqb c x.

(** A position in the subject: the text before it (nearest character
    first), the text after it, and the content of group 1 so far. *)
Record mstate := MState {
  before : text;
  after : text;
  group1 : option text
}.

Definition word_at (s : text) : bool :=
  match s with
  | [] => false
  | c :: _ => is_word c
  end.

Fixpoint rep (p : ascii -> bool) (lo : nat) (hi : option nat)
         (pre rest : text) : list (text * text) :=
  let stop := match lo with O => [(pre, rest)] | S _ => [] end in
  match hi with
  | Some O => stop
  | _ =>
      match rest with
      | c :: t =>
          if p c then rep p (pred lo) (option_map pred hi) (c :: pre) t ++ stop
          else stop
      | [] => stop
      end
  end.

Fixpoint run (ic : bool) (r : regex) (st : mstate) : list mstate :=
  match r with
  | Chr c =>
      match after st with
      | x :: t => if chr_match ic c x
                  then [MState (x :: before st) t (group1 st)] else []
      | [] => []
      end
  | Cls k =>
      match after st with
      | x :: t => if cls_match ic k x
                  then [MState (x :: before st) t (group1 st)] else []
      | [] => []
      end
  | Seq a b => flat_map (run ic b) (run ic a st)
  | Alt a b => run ic a st ++ run ic b st
  | Rep k lo hi =>
      map (fun pr => MState (fst pr) (snd pr) (group1 st))
          (rep (cls_match ic k) lo hi (before st) (after st))
  | Grp a =>
      map (fun st' =>
             MState (before st') (after st')
                    (Some (firstn (length (after st) - length (after st'))
                                  (after st))))
          (run ic a st)
  | Bol => match before st with [] => [st] | _ :: _ => [] end
  | Eol =>
      match after st with
      | [] => [st]
      | [c] => if (code c =? 10)%N then [st] else []
      | _ => []
      end
  | Wordb => if xorb (word_at (before st)) (word_at (after st)) then [st] else []
  end.

(** [r.match(s)]: a match at the start of [s]. *)
Definition match_at (ic : bool) (r : regex) (pre s : text) : option mstate :=
  hd_error (run ic r (MState pre s None)).

(** [r.search(s)]: the first match at the leftmost position that has one. *)
Fixpoint search_from (ic : bool) (r : regex) (pre s : text) : option mstate :=
  match match_at ic r pre s with
  | Some m => Some m
  | None =>
      match s with
      | [] => None
      | c :: t => search_from ic r (c :: pre) t
      end
  end.

Definition search (ic : bool) (r : regex) (s : text) : option mstate :=
  search_from ic r [] s.

Definition re_match (ic : bool) (r : regex) (s : text) : option mstate :=
  match_at ic r [] s.

(** A literal word of the pattern (the empty word matches the empty text). *)
Fixpoint Lit (s : text) : regex :=
  match s with
  | [] => Rep Digit 0 (Some 0)
  | [c] => Chr c
  | c :: t => Seq (Chr c) (Lit t)
  end.

End Regex.

Import Text Regex.

(** ** The precompiled patterns of the program *)

Definition d_n (n : nat) : regex := Rep Digit n (Some n).

(** [(\d{3})(?:P\d{2}|[A-Z]{1,3}\d{2,3}|\d{3})$] *)
Definition RE_DUCT_NO : regex :=
  Seq (Grp (d_n 3))
      (Seq (Alt (Seq (Chr "P") (d_n 2))
                (Alt (Seq (Rep (Range "A" "Z") 1 (Some 3)) (Rep Digit 2 (Some 3)))
                     (d_n 3)))
           Eol).

(** [\bAB\s*\d{3}\b] and [\bGB\s*\d{3}\b] *)
Definition RE_CODE (a b : ascii) : regex :=
  Seq Wordb (Seq (Chr a) (Seq (Chr b) (Seq (Rep Space 0 None) (Seq (d_n 3) Wordb)))).

Definition RE_AB_CODE : regex := RE_CODE "A" "B".
Definition RE_GB_CODE : regex := RE_CODE "G" "B".

(** [PANEL|PANELASSY], compiled with [re.IGNORECASE] *)
Definition RE_PANEL_TAG : regex := Alt (Lit "PANEL"%string) (Lit "PANELASSY"%string).

(** [^P(\d+)$] *)
Definition RE_PANEL_NO : regex :=
  Seq Bol (Seq (Chr "P") (Seq (Grp (Rep Digit 1 None)) Eol)).

(** [^\d+$] *)
Definition RE_NUMERIC : regex := Seq Bol (Seq (Rep Digit 1 None) Eol).

(** ** Cell values

    A cell of an object column is a Python string, [None], or the float NaN
    that pandas uses for a missing value. *)

Inductive pyval :=
| Str (s : text)
| PyNone
| NaN.

(** [Series.notna] *)
Definition notna (v : pyval) : bool :=
  match v with Str _ => true | _ => false end.

(** [Series.astype(str)] on an object column: [str(x)] of every element. *)
Definition astype_str (v : pyval) : text :=
  match v with
  | Str s => s
  | PyNone => "None"%string
  | NaN => "nan"%string
  end.

(** ** Helpers *)

Definition extract_duct_no (du_code : pyval) : pyval :=
  match du_code with
  | Str s =>
      let core := strip (hd [] (split "(" s)) in
      let core_u := upper core in
      match search false RE_DUCT_NO core_u with
      | Some m => match group1 m with Some g => Str g | None => PyNone end
      | None => PyNone
      end
  | _ => PyNone
  end.

Definition hyphen : text := "-"%string.

Definition extract_unit_wbs (pkg_code : pyval) : pyval * pyval :=
  match pkg_code with
  | Str p =>
      let s := strip_chars hyphen (strip p) in
      match split "-" s with
      | p0 :: p1 :: _ => (Str p0, Str (p0 ++ hyphen ++ p1))
      | [p0] => match p0 with
                | [] => (PyNone, PyNone)
                | _ :: _ => (Str p0, PyNone)
                end
      | [] => (PyNone, PyNone)
      end
  | _ => (PyNone, PyNone)
  end.

(** The description column of one duct group: [group_df["DU Description"]].
    [columns] are the column names of the frame. *)
Definition DU_Description : text := "DU Description"%string.

Definition mem (c : text) (l : list text) : bool := existsb (Text.eqb c) l.

Definition is_some {A} (o : option A) : bool :=
  match o with Some _ => true | None => false end.

(** [series.dropna().astype(str).str.upper()] *)
Definition dropna_upper (col : list pyval) : list text :=
  flat_map (fun v => match v with Str s => [upper s] | _ => [] end) col.

Definition AB : text := "AB"%string.
Definition GB : text := "GB"%string.

Definition detect_duct_prefix_for_block (columns : list text)
           (group_df : list pyval) : pyval :=
  if negb (mem DU_Description columns) then PyNone
  else
    let U := dropna_upper group_df in
    if existsb (fun u => is_some (search false RE_AB_CODE u)) U then Str AB
    else if existsb (fun u => is_some (search false RE_GB_CODE u)) U then Str GB
    else
      let is_panel u := is_some (search true RE_PANEL_TAG u) in
      if existsb (fun u => is_panel u && contains AB u) U then Str AB
      else if existsb (fun u => is_panel u && contains GB u) U then Str GB
      else PyNone.

(** The two columns that [build_duct_key_column] reads from the frame:
    ["Duct No"] and ["DU Description"], row by row. *)
Definition keyed := (pyval * pyval)%type.

Definition duct_no_of (r : keyed) : pyval := fst r.
Definition descr_of (r : keyed) : pyval := snd r.

Definition same_duct (d : text) (r : keyed) : bool :=
  match duct_no_of r with Str d' => Text.eqb d d' | _ => false end.

(** The group labels of [df.groupby("Duct No", dropna=True)]: the distinct
    non-null duct numbers, in order of first appearance. *)
Fixpoint duct_labels (df : list keyed) (seen : list text) : list text :=
  match df with
  | [] => []
  | r :: t =>
      match duct_no_of r with
      | Str d => if mem d seen then duct_labels t seen
                 else d :: duct_labels t (d :: seen)
      | _ => duct_labels t seen
      end
  end.

(** [df.groupby("Duct No", dropna=True).apply(detect_duct_prefix_for_block)]:
    one entry per group label. *)
Definition prefix_by_duct (columns : list text) (df : list keyed)
  : list (text * pyval) :=
  map (fun d => (d, detect_duct_prefix_for_block columns
                      (map descr_of (filter (same_duct d) df))))
      (duct_labels df []).

(** [series.map(mapping)]: NaN where the value is missing or not a label. *)
Fixpoint lookup (d : text) (m : list (text * pyval)) : pyval :=
  match m with
  | [] => NaN
  | (k, v) :: t => if Text.eqb d k then v else lookup d t
  end.

Definition series_map (m : list (text * pyval)) (v : pyval) : pyval :=
  match v with Str d => lookup d m | _ => NaN end.

(** [series.fillna("")] *)
Definition fillna_empty (v : pyval) : text :=
  match v with Str s => s | _ => [] end.

Definition Duct_No_col : text := "Duct No"%string.

Definition build_duct_key_column (columns : list text) (df : list keyed)
  : list pyval :=
  if negb (mem Duct_No_col columns) then map (fun _ => PyNone) df
  else
    let prefixes := prefix_by_duct columns df in
    map (fun r =>
           let prefix := series_map prefixes (duct_no_of r) in
           let duct_str := astype_str (duct_no_of r) in
           if notna prefix then Str (fillna_empty prefix ++ duct_str)
           else Str duct_str)
        df.

(** ** Frames *)

(** A row of the unified table as it is read: every cell is text or missing,
    under its column name. *)
Definition cells := list (text * pyval).

(** [row[name]]; a column that the row's sheet did not have is NaN after
    [pd.concat]. *)
Fixpoint col (name : text) (c : cells) : pyval :=
  match c with
  | [] => NaN
  | (k, v) :: t => if Text.eqb name k then v else col name t
  end.

(** A row of [big] once [load_uploaded_excels] has added the derived columns
    and coerced the weight and the date. *)
Record row := Row {
  values : cells;
  Duct_No : pyval;
  Unit_No : pyval;
  WBS_Code : pyval;
  Duct_Key : pyval;
  Total_Weight : float;
  Modified_On : option Z
}.

Record frame := Frame {
  columns : list text;
  rows : list row
}.

(** What the program takes from pandas and does not define itself:
    [pd.to_numeric(.., errors="coerce")] on a cell ([None] when the result is
    NaN), [pd.to_datetime(.., errors="coerce")] on a cell of a column (the
    format is guessed from the column; nanoseconds since the epoch, [None]
    for NaT), [strftime("%d-%b-%Y")] and the sum of a group of floats. *)
Class Pandas := {
  to_numeric : pyval -> option float;
  to_datetime : list pyval -> pyval -> option Z;
  strftime : Z -> text;
  group_sum : list float -> float
}.

(** One sheet of a workbook, read with [dtype=str]. *)
Record sheet := Sheet {
  header : list text;
  body : list (list pyval)
}.

(** [df.empty] *)
Definition sheet_empty (s : sheet) : bool :=
  match header s, body s with
  | _ :: _, _ :: _ => false
  | _, _ => true
  end.

(** An uploaded file, with what [pd.read_excel(uf, sheet_name=None)] does on
    it: the sheets, or an exception with its message. *)
Record upload := Upload {
  uf_name : option text;
  read_excel : text + list sheet
}.

Definition REQUIRED_COLS : list text :=
  map list_ascii_of_string
  [ "Vendor Name"; "PO No"; "Package Code of Description"; "DU Code";
    "DU Description"; "Total Weight"; "Modified On"; "Package Code of MR";
    "Mark No" ]%string.

Definition MASTER_FRONT_COLS : list text :=
  map list_ascii_of_string
  [ "DU Code"; "DU Description"; "Mark No"; "DU Quantity"; "DU UOM";
    "DU Qty In Alternative UOM"; "Alternate UOM"; "Unit Weight in KG";
    "Total Weight"; "Vendor Name"; "PO No"; "Package Code of Description";
    "Package Code of MR"; "Mfg_DrawingNo"; "Mfg_DrawingRevNo";
    "Shipping list rev. no(Alternate BOM)"; "MR No"; "Created On";
    "Modified On" ]%string.

(** The first loop of [load_uploaded_excels]: the non-empty sheets of the
    readable files, and the name and message of every file that raised. *)
Definition default_name : text := "uploaded.xlsx"%string.

Definition getattr_name (uf : upload) : text :=
  match uf_name uf with Some n => n | None => default_name end.

Fixpoint read_all (files : list upload) (all_rows : list sheet)
         (errors : list (text * text)) : list sheet * list (text * text) :=
  match files with
  | [] => (all_rows, errors)
  | uf :: rest =>
      match read_excel uf with
      | inr xls =>
          read_all rest
                   (all_rows ++ filter (fun s => negb (sheet_empty s)) xls)
                   errors
      | inl e => read_all rest all_rows (errors ++ [(getattr_name uf, e)])
      end
  end.

(** [pd.concat(all_rows, ignore_index=True)]: the columns in order of first
    appearance, the rows one sheet after the other. *)
Fixpoint union_cols (seen : list text) (l : list text) : list text :=
  match l with
  | [] => []
  | c :: t => if mem c seen then union_cols seen t
              else c :: union_cols (c :: seen) t
  end.

Definition concat_columns (all_rows : list sheet) : list text :=
  union_cols [] (flat_map header all_rows).

Definition concat_rows (all_rows : list sheet) : list cells :=
  flat_map (fun s => map (fun r => combine (header s) r) (body s)) all_rows.

(** [big.columns = [c.strip() for c in big.columns]] *)
Definition strip_columns (cols : list text) : list text := map strip cols.

Definition strip_keys (c : cells) : cells :=
  map (fun kv => (strip (fst kv), snd kv)) c.

Definition missing_cols (cols : list text) : list text :=
  filter (fun c => negb (mem c cols)) REQUIRED_COLS.

(** ** Sorting by columns

    [DataFrame.sort_values(by=[...])] on several columns is a stable
    lexicographic sort; in every column the missing values come last
    ([na_position="last"], the default). *)

Inductive skey :=
| KObj (v : pyval)     (* a cell of an object column *)
| KNum (z : Z).        (* a cell of a numeric column without missing values *)

Definition key_cmp (a b : skey) : comparison :=
  match a, b with
  | KObj (Str x), KObj (Str y) => Text.cmp x y
  | KObj (Str _), KObj _ => Lt
  | KObj _, KObj (Str _) => Gt
  | KObj _, KObj _ => Eq
  | KNum x, KNum y => (x ?= y)%Z
  | KObj _, KNum _ => Lt
  | KNum _, KObj _ => Gt
  end.

Definition lex_cmp (a b : list skey) : comparison := lexc key_cmp a b.

Definition lex_leb (a b : list skey) : bool :=
  match lex_cmp a b with Gt => false | _ => true end.

Definition lex_eqb (a b : list skey) : bool :=
  match lex_cmp a b with Eq => true | _ => false end.

Section Sort.
Variable A : Type.
Variable by_ : A -> list skey.

Fixpoint insert (x : A) (l : list A) : list A :=
  match l with
  | [] => [x]
  | y :: t => if lex_leb (by_ x) (by_ y) then x :: l else y :: insert x t
  end.

(** Rows with equal keys keep their order. *)
Fixpoint sort_values (l : list A) : list A :=
  match l with
  | [] => []
  | x :: t => insert x (sort_values t)
  end.

(** The first row of every group of equal keys, in order of appearance. *)
Fixpoint first_of_groups (l : list A) (seen : list (list skey)) : list A :=
  match l with
  | [] => []
  | x :: t =>
      if existsb (lex_eqb (by_ x)) seen then first_of_groups t seen
      else x :: first_of_groups t (by_ x :: seen)
  end.
End Sort.

(** ** The loader *)

Inductive exn :=
| ValueError (msg : text).

Inductive result (A : Type) :=
| Raise (e : exn)
| Return (a : A).

Arguments Raise {A} e.
Arguments Return {A} a.

(** [repr] of a list of strings that hold no quote and no escape. *)
Definition quote : text := "'"%string.
Definition comma : text := ", "%string.

Fixpoint join (sep : text) (l : list text) : text :=
  match l with
  | [] => []
  | [x] => x
  | x :: t => x ++ sep ++ join sep t
  end.

Definition repr_list (l : list text) : text :=
  ("["%string : text) ++ join comma (map (fun s => quote ++ s ++ quote) l)
                      ++ ("]"%string : text).

Definition missing_message (missing : list text) : text :=
  ("Missing columns: "%string : text) ++ repr_list missing.

(** [df[name] = ...]: a new column goes last, an existing one is replaced. *)
Definition add_col (name : text) (cols : list text) : list text :=
  if mem name cols then cols else cols ++ [name].

Definition float_zero : float := 0%float.

(** [.fillna(0)] of the coerced weight. *)
Definition fillna_zero (o : option float) : float :=
  match o with Some f => f | None => float_zero end.

Section Pipeline.
Context {pandas : Pandas}.

(** The columns that the loader derives and coerces, on the rows of the
    unified table.  The trimmed column names are taken to be distinct, so
    that [big[name]] is one column. *)
Definition derive (cols : list text) (recs : list cells) : list row :=
  let duct_no c := extract_duct_no (col "DU Code"%string c) in
  let unit_wbs c := extract_unit_wbs (col "Package Code of MR"%string c) in
  let cols1 := add_col "WBS Code"%string
                 (add_col "Unit No"%string (add_col Duct_No_col cols)) in
  let duct_key :=
    build_duct_key_column cols1
      (map (fun c => (duct_no c, col DU_Description c)) recs) in
  let modified := map (col "Modified On"%string) recs in
  map (fun ck =>
         let c := fst ck in
         Row c (duct_no c) (fst (unit_wbs c)) (snd (unit_wbs c)) (snd ck)
             (fillna_zero (to_numeric (col "Total Weight"%string c)))
             (to_datetime modified (col "Modified On"%string c)))
      (combine recs duct_key).

Definition derived_columns (cols : list text) : list text :=
  add_col "Duct Key"%string
    (add_col "WBS Code"%string
       (add_col "Unit No"%string (add_col Duct_No_col cols))).

Definition load_uploaded_excels (files : list upload)
  : result (frame * list (text * text)) :=
  let (all_rows, errors) := read_all files [] [] in
  match all_rows with
  | [] => Return (Frame [] [], errors)
  | _ :: _ =>
      let cols := strip_columns (concat_columns all_rows) in
      let recs := map strip_keys (concat_rows all_rows) in
      match missing_cols cols with
      | (_ :: _) as missing => Raise (ValueError (missing_message missing))
      | [] => Return (Frame (derived_columns cols) (derive cols recs), errors)
      end
  end.

(** *** The detailed summary *)

Definition has_duct (r : row) : bool := notna (Duct_No r) && notna (Duct_Key r).

(** The six columns of the [groupby]. *)
Definition group_key (r : row) : list skey :=
  [ KObj (Duct_Key r); KObj (Unit_No r); KObj (WBS_Code r);
    KObj (col "Vendor Name"%string (values r));
    KObj (col "PO No"%string (values r));
    KObj (col "Package Code of Description"%string (values r)) ].

Record agg_row := Agg {
  a_Duct_No : pyval;
  a_Unit_No : pyval;
  a_WBS_Code : pyval;
  a_Vendor_Name : pyval;
  a_PO_No : pyval;
  a_Package_Code : pyval;
  a_Total_Weight : float;
  a_Latest_Modified_On : option Z
}.

(** The label of a group in a key column: the value, NaN for the group of
    the missing values ([dropna=False]). *)
Definition label (v : pyval) : pyval :=
  match v with Str s => Str s | _ => NaN end.

(** [max] of a datetime column within a group: NaT is skipped. *)
Definition later (a b : option Z) : option Z :=
  match a, b with
  | Some x, Some y => Some (Z.max x y)
  | Some x, None => Some x
  | None, o => o
  end.

Definition max_date (l : list (option Z)) : option Z := fold_left later l None.

Definition members (df : list row) (rep : row) : list row :=
  filter (fun r => lex_eqb (group_key r) (group_key rep)) df.

Definition aggregate (df : list row) (rep : row) : agg_row :=
  let g := members df rep in
  Agg (label (Duct_Key rep)) (label (Unit_No rep)) (label (WBS_Code rep))
      (label (col "Vendor Name"%string (values rep)))
      (label (col "PO No"%string (values rep)))
      (label (col "Package Code of Description"%string (values rep)))
      (group_sum (map Total_Weight g))
      (max_date (map Modified_On g)).

Definition summary_order (a : agg_row) : list skey :=
  [ KObj (a_Duct_No a); KObj (a_Unit_No a);
    KObj (a_Vendor_Name a); KObj (a_PO_No a) ].

Definition summarize_by_duct_vendor_po (df : list row) : list agg_row :=
  let filt := filter has_duct df in
  let groups := sort_values group_key (first_of_groups group_key filt []) in
  let agg := map (aggregate filt) groups in
  sort_values summary_order agg.

(** *** The master sheet *)

(** The two numeric sort columns are an [Int64] and a [float64] column in
    pandas; they are integers here, which is what both hold below 2^53. *)
Definition sentinel : Z := 10 ^ 9.

(** [d["Mark No"].astype(str).str.strip().str.upper()] *)
Definition mark_no (r : row) : text :=
  upper (strip (astype_str (col "Mark No"%string (values r)))).

(** [mn.str.extract(RE_PANEL_NO)[0].astype("Int64")] *)
Definition panel_num (mn : text) : option Z :=
  match search false RE_PANEL_NO mn with
  | Some m => option_map int_of_digits (group1 m)
  | None => None
  end.

Definition is_numeric (mn : text) : bool := is_some (re_match false RE_NUMERIC mn).

(** [np.select([is_panel, is_numeric], [0, 1], default=2)] *)
Definition grp (mn : text) : Z :=
  if is_some (panel_num mn) then 0
  else if is_numeric mn then 1 else 2.

Definition ord1 (mn : text) : Z :=
  match panel_num mn with Some n => n | None => sentinel end.

(** [pd.to_numeric(mn.where(is_numeric), errors="coerce").fillna(10**9)] *)
Definition ord2 (mn : text) : Z :=
  if is_numeric mn then int_of_digits mn else sentinel.

Definition master_order (r : row) : list skey :=
  let mn := mark_no r in
  [ KObj (Duct_Key r); KObj (Unit_No r);
    KNum (grp mn); KNum (ord1 mn); KNum (ord2 mn);
    KObj (col "PO No"%string (values r));
    KObj (col "DU Code"%string (values r)) ].

(** The rows of the master sheet, in their final order. *)
Definition master_rows (df : list row) : list row :=
  sort_values master_order (filter (fun r => notna (Duct_Key r) && notna (Duct_No r)) df).

(** A cell of the master sheet: text as read, the coerced weight, the
    coerced date. *)
Inductive cell :=
| Obj (v : pyval)
| Float (f : float)
| Datetime (t : option Z).

Definition front_cell (r : row) (c : text) : cell :=
  if Text.eqb c "Total Weight"%string then Float (Total_Weight r)
  else if Text.eqb c "Modified On"%string then Datetime (Modified_On r)
  else Obj (col c (values r)).

Record master_row := Master {
  m_Duct_No : pyval;
  m_Unit_No : pyval;
  m_WBS_Code : pyval;
  m_front : list (text * cell)
}.

Definition existing_front (cols : list text) : list text :=
  filter (fun c => mem c cols) MASTER_FRONT_COLS.

Definition master_of (cols : list text) (r : row) : master_row :=
  Master (Duct_Key r) (Unit_No r) (WBS_Code r)
         (map (fun c => (c, front_cell r c)) (existing_front cols)).

Fixpoint front (c : text) (l : list (text * cell)) : option cell :=
  match l with
  | [] => None
  | (k, v) :: t => if Text.eqb c k then Some v else front c t
  end.

Fixpoint set_front (c : text) (v : cell) (l : list (text * cell))
  : list (text * cell) :=
  match l with
  | [] => []
  | (k, w) :: t => if Text.eqb c k then (k, v) :: t else (k, w) :: set_front c v t
  end.

(** [pd.to_datetime(df[c], errors="coerce")] on a column of the sheet. *)
Definition parse_dates (column : list cell) : list (option Z) :=
  let texts := map (fun x => match x with Obj v => v | _ => NaN end) column in
  map (fun x => match x with
                | Datetime t => t
                | Obj v => to_datetime texts v
                | Float _ => None
                end) column.

Definition format_date_col (c : text) (out : list master_row) : list master_row :=
  match out with
  | [] => out
  | m :: _ =>
      if is_some (front c (m_front m)) then
        let column := map (fun m => match front c (m_front m) with
                                    | Some x => x | None => Obj NaN end) out in
        let parsed := parse_dates column in
        if existsb is_some parsed then
          map (fun mp =>
                 let m := fst mp in
                 let s := match snd mp with
                          | Some t => Obj (Str (strftime t))
                          | None => Obj NaN
                          end in
                 Master (m_Duct_No m) (m_Unit_No m) (m_WBS_Code m)
                        (set_front c s (m_front m)))
              (combine out parsed)
        else out
      else out
  end.

Definition format_date_cols (out : list master_row) (cs : list text)
  : list master_row :=
  fold_left (fun o c => format_date_col c o) cs out.

Definition build_master_sheet (df : frame) : list master_row :=
  let d := master_rows (rows df) in
  let out := map (master_of (columns df)) d in
  format_date_cols out (map list_ascii_of_string ["Created On"; "Modified On"]%string).

(** *** The page

    What one run of the script shows: it stops with a message, or it shows
    the skipped files and the two reports.  [unit_sel] and [vendor_sel] are
    the choices made in the two sidebar filters. *)

Inductive screen :=
| Info (msg : text)
| Error (msg : text)
| Warning (errors : list (text * text)) (msg : text)
| Ready (errors : list (text * text)) (detailed : list agg_row)
        (master : list master_row).

(** [series.isin(sel)] *)
Definition isin (sel : list text) (v : pyval) : bool :=
  match v with Str s => mem s sel | _ => false end.

Definition apply_filters (unit_sel vendor_sel : list text) (big : list row)
  : list row :=
  let units := filter notna (map Unit_No big) in
  let tmp := match units with
             | _ :: _ => filter (fun r => isin unit_sel (Unit_No r)) big
             | [] => big
             end in
  let vendors := filter notna (map (fun r => col "Vendor Name"%string (values r)) tmp) in
  match vendors with
  | _ :: _ => filter (fun r => isin vendor_sel (col "Vendor Name"%string (values r))) tmp
  | [] => tmp
  end.

Definition frame_empty (f : frame) : bool :=
  match columns f, rows f with
  | _ :: _, _ :: _ => false
  | _, _ => true
  end.

(** The page after [load_uploaded_excels] has returned or raised. *)
Definition page (loaded : result (frame * list (text * text)))
           (unit_sel vendor_sel : list text) : screen :=
  match loaded with
  | Raise (ValueError msg) => Error msg
  | Return (big, errors) =>
      if frame_empty big
      then Warning errors "No usable data found in the uploaded files."%string
      else
        let df := apply_filters unit_sel vendor_sel (rows big) in
        match df with
        | [] => Warning errors
                  "No data after filters. Adjust Unit/Vendor selections."%string
        | _ :: _ =>
            Ready errors (summarize_by_duct_vendor_po df)
                  (build_master_sheet (Frame (columns big) df))
        end
  end.

Definition app (files : list upload) (unit_sel vendor_sel : list text) : screen :=
  match files with
  | [] => Info "Please upload at least one .xlsx file to proceed."%string
  | _ :: _ => page (load_uploaded_excels files) unit_sel vendor_sel
  end.

End Pipeline.

(** *** The cache of the loader

    [load_uploaded_excels] is wrapped in [st.cache_data]: a result that was
    returned for the same files is returned again without reading them; an
    exception is not stored. *)

Definition pyval_eq_dec (a b : pyval) : {a = b} + {a <> b}.
Proof. decide equality; apply (list_eq_dec ascii_dec). Defined.

Definition sheet_eq_dec (a b : sheet) : {a = b} + {a <> b}.
Proof.
  decide equality.
  - apply (list_eq_dec (list_eq_dec pyval_eq_dec)).
  - apply (list_eq_dec (list_eq_dec ascii_dec)).
Defined.

Definition upload_eq_dec (a b : upload) : {a = b} + {a <> b}.
Proof.
  decide equality.
  - decide equality;
      first [apply (list_eq_dec sheet_eq_dec) | apply (list_eq_dec ascii_dec)].
  - decide equality; apply (list_eq_dec ascii_dec).
Defined.

Definition loaded := (frame * list (text * text))%type.
Definition cache := list (list upload * loaded).

Fixpoint cache_find (files : list upload) (c : cache) : option loaded :=
  match c with
  | [] => None
  | (k, v) :: t =>
      if list_eq_dec upload_eq_dec files k then Some v else cache_find files t
  end.

Section Session.
Context {pandas : Pandas}.



End Session.

(** ** The claims' wording, for comparison with the code *)


(** The part of [s] before the first [c]. *)
Fixpoint before_first (c : ascii) (s : text) : text :=
  match s with
  | [] => []
  | x :: t => if Ascii.eqb x c then [] else x :: before_first c t
  end.


(** ** Orders

    What makes a three-way comparison a total preorder. *)
Record total_cmp {A : Type} (c : A -> A -> comparison) : Prop := {
  cmp_antisym : forall a b, c b a = CompOpp (c a b);
  cmp_eq_l : forall a b d, c a b = Eq -> c a d = c b d;
  cmp_lt_trans : forall a b d, c a b = Lt -> c b d = Lt -> c a d = Lt
}.

Arguments cmp_antisym {A c}.
Arguments cmp_eq_l {A c}.
Arguments cmp_lt_trans {A c}.


Definition distinct_by {A : Type} (by_ : A -> list skey) (a b : A) : Prop :=
  lex_eqb (by_ a) (by_ b) = false.


(** ** An instance of the library for the examples

    Weights and dates written as decimal integers. *)
Definition all_digits (s : text) : bool :=
  match s with [] => false | _ :: _ => forallb is_digit s end.

Definition example_number (v : pyval) : option Z :=
  match v with
  | Str s => if all_digits s then Some (int_of_digits s) else None
  | _ => None
  end.

Definition example_pandas : Pandas := {|
  to_numeric v := option_map (fun z => PrimFloat.of_uint63 (Uint63.of_Z z))
                             (example_number v);
  to_datetime _ v := example_number v;
  strftime _ := "01-Jan-1970"%string;
  group_sum l := fold_left PrimFloat.add l float_zero
|}.


(** [p] occurs in [u]. *)
Definition substring (p u : text) : Prop :=
  exists pre post, u = pre ++ p ++ post.






(** A table for the examples. *)
Definition example_cols : list text :=
  map list_ascii_of_string
      ["DU Code"; "DU Description"; "Package Code of MR"; "Mark No";
       "Total Weight"; "Modified On"; "Vendor Name"; "PO No";
       "Package Code of Description"]%string.

Definition example_rec_on (date du_code descr mark weight : string) : cells :=
  combine example_cols
    [ Str du_code; Str descr; Str "U1-WBS20-XYZ"%string; Str mark; Str weight;
      Str date; Str "ACME"%string; Str "PO-1"%string; Str "PKG"%string ].

Definition example_rec : string -> string -> string -> string -> cells :=
  example_rec_on "20240105".

Definition example_df : list row :=
  derive (pandas := example_pandas) example_cols
    [ example_rec_on "20240105" "AHU-04-637X01" "AB 123" "P2" "10";
      example_rec_on "20240107" "AHU-04-637P02" "bracket" "3" "15";
      example_rec_on "n/a" "AHU-04-637123" "bolt" "X9" "n/a";
      example_rec_on "20240109" "NO-MATCH-HERE" "spare" "7" "40" ].

Definition example_agg : agg_row :=
  Agg (Str "AB637"%string) (Str "U1"%string) (Str "U1-WBS20"%string)
      (Str "ACME"%string) (Str "PO-1"%string) (Str "PKG"%string)
      25%float (Some 20240107%Z).

(** The six key columns of a row of the detailed summary, and the rows of
    the table that its group holds. *)
Definition agg_key (a : agg_row) : list skey :=
  [ KObj (a_Duct_No a); KObj (a_Unit_No a); KObj (a_WBS_Code a);
    KObj (a_Vendor_Name a); KObj (a_PO_No a); KObj (a_Package_Code a) ].

Definition group_of (df : list row) (a : agg_row) : list row :=
  filter (fun r => lex_eqb (group_key r) (agg_key a)) (filter has_duct df).








(** The three leading columns of a row of the master sheet. *)
Definition key3 (m : master_row) : pyval * pyval * pyval :=
  (m_Duct_No m, m_Unit_No m, m_WBS_Code m).

(** The sheets that the loader keeps and the errors that it collects, file
    by file. *)
Definition sheets_of (files : list upload) : list sheet :=
  flat_map (fun uf => match read_excel uf with
                      | inr xls => filter (fun s => negb (sheet_empty s)) xls
                      | inl _ => []
                      end) files.

Definition errors_of (files : list upload) : list (text * text) :=
  flat_map (fun uf => match read_excel uf with
                      | inr _ => []
                      | inl e => [(getattr_name uf, e)]
                      end) files.



Definition example_values (du_code descr mark weight : string) : list pyval :=
  [ Str du_code; Str descr; Str "U1-WBS20-XYZ"%string; Str mark; Str weight;
    Str "20240105"%string; Str "ACME"%string; Str "PO-1"%string;
    Str "PKG"%string ].

Definition good_file : upload :=
  Upload (Some ("list.xlsx"%string : text))
         (inr [ Sheet example_cols
                      [ example_values "AHU-04-637X01" "AB 123" "P2" "10";
                        example_values "AHU-04-637P02" "bracket" "3" "15" ] ]).

Definition bad_file : upload :=
  Upload (Some ("notes.xlsx"%string : text))
         (inl ("File is not a zip file"%string : text)).

Definition short_file : upload :=
  Upload (Some ("short.xlsx"%string : text))
         (inr [ Sheet (map list_ascii_of_string ["DU Code "; "Mark No"]%string)
                      [ [Str "AHU-04-637X01"%string; Str "P2"%string] ] ]).

(** ** Notions for the further properties *)

(** The number of rows of [l] with the key of [rep], and the rows whose key
    is none of [seen]. *)
Definition class_size {A : Type} (by_ : A -> list skey) (l : list A) (rep : A) : nat :=
  length (filter (fun r => lex_eqb (by_ r) (by_ rep)) l).

Definition unseen {A : Type} (by_ : A -> list skey) (seen : list (list skey))
           (r : A) : bool :=
  negb (existsb (lex_eqb (by_ r)) seen).




Definition vendor_of (r : row) : pyval := col "Vendor Name"%string (values r).

(** * Properties *)

Unset Implicit Arguments.

(** ** Text *)

Module TextFacts.




Lemma lstrip_head p s c t : lstrip_by p s = c :: t -> p c = false.
Proof.
  induction s as [|x s IH]; simpl; [discriminate|].
  destruct (p x) eqn:E; auto. intros H. inversion H; subst. exact E.
Qed.


Lemma upper_char_space c : is_space (upper_char c) = is_space c.
Proof.
  unfold upper_char. destruct (is_lower c) eqn:E; auto.
  destruct c as [[] [] [] [] [] [] [] []]; try discriminate E; reflexivity.
Qed.







End TextFacts.

(** ** The matcher *)

Module RegexFacts.













End RegexFacts.

Import TextFacts RegexFacts.
Arguments run : simpl never.

(** ** The duct number *)









Lemma hd_split c s : hd [] (split c s) = before_first c s.
Proof.
  induction s as [|x t IH]; simpl; auto.
  destruct (Ascii.eqb x c); auto.
  destruct (split c t); simpl in *; rewrite <- IH; reflexivity.
Qed.



(** ** Orders and sorting *)

Module OrderFacts.

Section Cmp.
Variable A : Type.
Variable c : A -> A -> comparison.
Hypothesis T : total_cmp c.

Lemma cmp_refl a : c a a = Eq.
Proof.
  pose proof (cmp_antisym T a a) as H. destruct (c a a); auto; discriminate.
Qed.

Lemma cmp_eq_sym a b : c a b = Eq -> c b a = Eq.
Proof. intros H. rewrite (cmp_antisym T a b), H. reflexivity. Qed.

Lemma cmp_eq_r a b d : c a b = Eq -> c d a = c d b.
Proof.
  intros H. rewrite (cmp_antisym T a d), (cmp_antisym T b d).
  f_equal. apply (cmp_eq_l T). exact H.
Qed.



Lemma lexc_total_cmp : total_cmp (lexc c).
Proof.
  split.
  - induction a as [|x a IH]; intros [|y b]; simpl; auto.
    rewrite (cmp_antisym T x y). destruct (c x y); simpl; auto.
  - induction a as [|x a IH]; intros [|y b] d; simpl; try discriminate; auto.
    destruct (c x y) eqn:E; try discriminate. intros H.
    destruct d as [|z d]; auto.
    rewrite (cmp_eq_l T x y z E). destruct (c y z); auto.
  - induction a as [|x a IH]; intros [|y b] [|z d]; simpl; try discriminate; auto.
    destruct (c x y) eqn:E1; try discriminate.
    + rewrite (cmp_eq_l T x y z E1). destruct (c y z); try discriminate; auto.
      apply IH.
    + intros _. destruct (c y z) eqn:E2; try discriminate.
      * rewrite <- (cmp_eq_r y z x E2), E1. auto.
      * rewrite (cmp_lt_trans T x y z E1 E2). auto.
Qed.
End Cmp.

Lemma code_total_cmp : total_cmp (fun x y => (code x ?= code y)%N).
Proof.
  split.
  - intros a b. apply N.compare_antisym.
  - intros a b d H. apply N.compare_eq in H. rewrite H. reflexivity.
  - intros a b d. rewrite !N.compare_lt_iff. lia.
Qed.

Lemma text_total_cmp : total_cmp Text.cmp.
Proof. apply lexc_total_cmp, code_total_cmp. Qed.

Lemma key_total_cmp : total_cmp key_cmp.
Proof.
  pose proof text_total_cmp as T. split.
  - intros [[x| |]|x] [[y| |]|y]; simpl; auto.
    + apply (cmp_antisym T).
    + apply Z.compare_antisym.
  - intros [[x| |]|x] [[y| |]|y] [[z| |]|z]; simpl; try discriminate; auto.
    + apply (cmp_eq_l T).
    + intros H. apply Z.compare_eq in H. subst. reflexivity.
  - intros [[x| |]|x] [[y| |]|y] [[z| |]|z]; simpl; try discriminate; auto.
    + apply (cmp_lt_trans T).
    + rewrite !Z.compare_lt_iff. lia.
Qed.

Lemma lex_total_cmp : total_cmp lex_cmp.
Proof. apply lexc_total_cmp, key_total_cmp. Qed.



Lemma lex_eqb_refl a : lex_eqb a a = true.
Proof. unfold lex_eqb. rewrite (cmp_refl _ _ lex_total_cmp). reflexivity. Qed.

Lemma lex_eqb_sym a b : lex_eqb a b = lex_eqb b a.
Proof.
  unfold lex_eqb. rewrite (cmp_antisym lex_total_cmp a b).
  destruct (lex_cmp a b); reflexivity.
Qed.

Lemma lex_eqb_l a b d : lex_eqb a b = true -> lex_eqb a d = lex_eqb b d.
Proof.
  unfold lex_eqb. intros H. destruct (lex_cmp a b) eqn:E; try discriminate.
  rewrite (cmp_eq_l lex_total_cmp a b d E). reflexivity.
Qed.


Section SortFacts.
Variable A : Type.
Variable by_ : A -> list skey.

Lemma insert_perm x l : Permutation (insert by_ x l) (x :: l).
Proof.
  induction l as [|y t IH]; simpl; auto.
  destruct (lex_leb (by_ x) (by_ y)); auto.
  rewrite IH. apply perm_swap.
Qed.

Lemma sort_values_perm l : Permutation (sort_values by_ l) l.
Proof.
  induction l as [|x t IH]; simpl; auto.
  rewrite insert_perm. auto.
Qed.



Lemma sort_values_in x l : In x (sort_values by_ l) <-> In x l.
Proof.
  split; apply Permutation_in; [|symmetry]; apply sort_values_perm.
Qed.

Lemma first_of_groups_in l : forall seen x,
  In x (first_of_groups by_ l seen) ->
  In x l /\ existsb (lex_eqb (by_ x)) seen = false.
Proof.
  induction l as [|y t IH]; simpl; intros seen x H; [tauto|].
  destruct (existsb (lex_eqb (by_ y)) seen) eqn:E.
  - apply IH in H. tauto.
  - destruct H as [<-|H]; auto.
    apply IH in H. simpl in H. destruct H as [H1 H2].
    apply orb_false_iff in H2. tauto.
Qed.


Lemma first_of_groups_distinct l : forall seen,
  ForallOrdPairs (distinct_by by_) (first_of_groups by_ l seen).
Proof.
  induction l as [|y t IH]; simpl; intros seen; [constructor|].
  destruct (existsb (lex_eqb (by_ y)) seen) eqn:E; auto.
  constructor; auto.
  apply Forall_forall. intros x Hx.
  apply first_of_groups_in in Hx. destruct Hx as [_ Hx].
  simpl in Hx. apply orb_false_iff in Hx. destruct Hx as [Hx _].
  unfold distinct_by. rewrite lex_eqb_sym. exact Hx.
Qed.
End SortFacts.

End OrderFacts.

Import OrderFacts.

(** ** Unit and WBS *)


(** C10. Whenever the WBS code returned by [extract_unit_wbs] is not null,
    the unit is not null either and the WBS code is the unit, a hyphen and
    the second segment; a null unit always comes with a null WBS code. *)
Theorem extract_unit_wbs_invariant (v u w : pyval) :
  extract_unit_wbs v = (u, w) ->
  (notna w = true ->
   exists s p0 p1 rest,
     v = Str s /\
     split "-" (strip_chars hyphen (strip s)) = p0 :: p1 :: rest /\
     u = Str p0 /\ w = Str (p0 ++ hyphen ++ p1)) /\
  (notna u = false -> notna w = false) /\
  u <> NaN /\ w <> NaN.
Proof.
  destruct v as [s| |]; simpl;
    try solve [intros H; inversion H; subst; simpl;
               repeat split; try discriminate; auto].
  destruct (split "-" (strip_chars hyphen (strip s))) as [|p0 [|p1 rest]] eqn:E.
  - intros H; inversion H; subst; simpl. repeat split; try discriminate; auto.
  - destruct p0; intros H; inversion H; subst; simpl;
      repeat split; try discriminate; auto.
  - intros H; inversion H; subst; simpl. repeat split; try discriminate; auto.
    intros _. exists s, p0, p1, rest. auto.
Qed.

Lemma extract_unit_wbs_invariant_witness :
  exists s p0 p1 rest,
    Str "U1-WBS20-XYZ"%string = Str s /\
    split "-" (strip_chars hyphen (strip s)) = p0 :: p1 :: rest /\
    Str "U1"%string = Str p0 /\
    Str "U1-WBS20"%string = Str (p0 ++ hyphen ++ p1).
Proof.
  apply (extract_unit_wbs_invariant (Str "U1-WBS20-XYZ"%string)
           (Str "U1"%string) (Str "U1-WBS20"%string)).
  - reflexivity.
  - reflexivity.
Defined.

(** ** The prefix of a duct group *)

Lemma text_eqb_eq (a b : text) : Text.eqb a b = true <-> a = b.
Proof.
  revert b. induction a as [|x a IH]; intros [|y b]; simpl;
    try (split; [discriminate | discriminate]); [tauto|].
  rewrite andb_true_iff, Ascii.eqb_eq, IH. split.
  - intros [-> ->]. reflexivity.
  - intros H. inversion H. auto.
Qed.
















(** ** The duct key *)

Lemma mem_in (c : text) l : mem c l = true <-> In c l.
Proof.
  unfold mem. rewrite existsb_exists. split.
  - intros (x & Hx & E). apply text_eqb_eq in E. subst. exact Hx.
  - intros H. exists c. split; auto. apply text_eqb_eq. reflexivity.
Qed.

Lemma mem_add_col_same c cols : mem c (add_col c cols) = true.
Proof.
  unfold add_col. destruct (mem c cols) eqn:E; auto.
  apply mem_in, in_or_app. right. left. reflexivity.
Qed.

Lemma mem_add_col_other c c' cols : mem c cols = true -> mem c (add_col c' cols) = true.
Proof.
  unfold add_col. intros H. destruct (mem c' cols); auto.
  apply mem_in, in_or_app. left. apply mem_in. exact H.
Qed.





(** With the column ["Duct No"] in the frame every key is a string. *)
Lemma duct_key_notna columns df :
  mem Duct_No_col columns = true ->
  Forall (fun k => notna k = true) (build_duct_key_column columns df).
Proof.
  intros Hc. unfold build_duct_key_column. rewrite Hc. simpl negb. cbv iota.
  apply Forall_forall. intros k Hk. apply in_map_iff in Hk.
  destruct Hk as (r & <- & _). cbv zeta.
  destruct (notna (series_map _ _)); reflexivity.
Qed.




(** ** Rows without a duct number *)

Lemma filter_without {A} (f : A -> bool) (l1 l2 : list A) (x : A) :
  f x = false -> filter f (l1 ++ x :: l2) = filter f (l1 ++ l2).
Proof.
  intros H. rewrite !filter_app. simpl. rewrite H. reflexivity.
Qed.

Lemma derive_duct_key {pandas : Pandas} cols recs r :
  In r (derive cols recs) -> notna (Duct_Key r) = true.
Proof.
  unfold derive. intros H. apply in_map_iff in H.
  destruct H as ([c k] & <- & H). simpl.
  apply in_combine_r in H.
  revert k H. apply Forall_forall, duct_key_notna.
  apply mem_add_col_other, mem_add_col_other, mem_add_col_same.
Qed.

(** What holds of the Duct Key on the code.  For every row of the loaded
    table, a Duct Number that is not null comes with a Duct Key that is not
    null; and a row that lacks either of the two is excluded from the
    detailed summary and from the master sheet: the reports are the same
    without it. *)
Theorem duct_key_invariant {pandas : Pandas} (cols : list text) (recs : list cells)
        (r : row) (out_cols : list text) (df1 df2 : list row) :
  In r (derive cols recs) ->
  (notna (Duct_No r) = true -> notna (Duct_Key r) = true) /\
  (notna (Duct_No r) && notna (Duct_Key r) = false ->
   summarize_by_duct_vendor_po (df1 ++ r :: df2)
   = summarize_by_duct_vendor_po (df1 ++ df2) /\
   build_master_sheet (Frame out_cols (df1 ++ r :: df2))
   = build_master_sheet (Frame out_cols (df1 ++ df2))).
Proof.
  intros Hr. split.
  - intros _. eapply derive_duct_key; eauto.
  - intros H. split.
    + unfold summarize_by_duct_vendor_po.
      rewrite (filter_without has_duct df1 df2 r H). reflexivity.
    + unfold build_master_sheet, master_rows. simpl rows.
      rewrite (filter_without _ df1 df2 r); [reflexivity|].
      rewrite andb_comm. exact H.
Qed.

Lemma duct_key_invariant_witness :
  let recs := [ example_rec "AHU-04-637X01" "AB 123" "P2" "10";
                example_rec "NO-MATCH-HERE" "spare" "3" "15" ] in
  let r := nth 1 (@derive example_pandas example_cols recs)
               (Row [] NaN NaN NaN NaN float_zero None) in
  summarize_by_duct_vendor_po (pandas := example_pandas) ([] ++ r :: [])
  = summarize_by_duct_vendor_po (pandas := example_pandas) ([] ++ []) /\
  build_master_sheet (pandas := example_pandas) (Frame example_cols ([] ++ r :: []))
  = build_master_sheet (pandas := example_pandas) (Frame example_cols ([] ++ [])).
Proof.
  intros recs r.
  apply (proj2 (@duct_key_invariant example_pandas example_cols recs r
                  example_cols [] [] (or_intror (or_introl eq_refl)))).
  reflexivity.
Defined.

(** The converse fails: a row whose code has no duct number gets the text
    of the missing number as its key, which is not null. *)
Lemma duct_key_iff_counterexample :
  ~ (forall (cols : list text) (recs : list cells) (r : row),
        In r (@derive example_pandas cols recs) ->
        (notna (Duct_Key r) = true <-> notna (Duct_No r) = true)).
Proof.
  intros H.
  pose (recs := [ example_rec "AHU-04-637X01" "AB 123" "P2" "10";
                  example_rec "NO-MATCH-HERE" "spare" "3" "15" ]).
  pose (r := nth 1 (@derive example_pandas example_cols recs)
                 (Row [] NaN NaN NaN NaN float_zero None)).
  assert (Hin : In r (@derive example_pandas example_cols recs))
    by (right; left; reflexivity).
  assert (Hk : Duct_Key r = Str "None"%string) by reflexivity.
  assert (Hn : Duct_No r = PyNone) by reflexivity.
  destruct (H example_cols recs r Hin) as [H1 _].
  rewrite Hk, Hn in H1. specialize (H1 eq_refl). discriminate H1.
Qed.

(** C1. The Duct Key should be null exactly when the Duct Number is, but on
    a table with the codes "AHU-04-637X01" and "NO-MATCH-HERE" the second
    row has no Duct Number and still gets a Duct Key: the text "None", which
    [notna] accepts. *)
Theorem duct_key_of_missing_duct_no :
  let duct_no := map extract_duct_no
                     [Str "AHU-04-637X01"%string; Str "NO-MATCH-HERE"%string] in
  let keys := build_duct_key_column [Duct_No_col; DU_Description]
                (combine duct_no [Str "AB 123"%string; Str "spare"%string]) in
  duct_no = [Str "637"%string; PyNone] /\
  keys = [Str "AB637"%string; Str "None"%string] /\
  map notna duct_no = [true; false] /\
  map notna keys = [true; true].
Proof. repeat split. Qed.

(** ** The detailed summary *)

Lemma key_cmp_label_r x v : key_cmp x (KObj (label v)) = key_cmp x (KObj v).
Proof. destruct x as [[]|], v; reflexivity. Qed.

Lemma key_cmp_label_l x v : key_cmp (KObj (label v)) x = key_cmp (KObj v) x.
Proof. destruct x as [[]|], v; reflexivity. Qed.

Lemma agg_key_r {pandas : Pandas} df rep k :
  lex_cmp k (agg_key (aggregate df rep)) = lex_cmp k (group_key rep).
Proof.
  unfold agg_key, group_key, aggregate, lex_cmp. simpl.
  repeat (destruct k as [|? k]; simpl; auto; rewrite key_cmp_label_r;
          match goal with |- context [key_cmp ?a ?b] => destruct (key_cmp a b) end;
          auto).
Qed.

Lemma agg_key_l {pandas : Pandas} df rep k :
  lex_cmp (agg_key (aggregate df rep)) k = lex_cmp (group_key rep) k.
Proof.
  rewrite (cmp_antisym lex_total_cmp k), agg_key_r.
  symmetry. apply (cmp_antisym lex_total_cmp).
Qed.

Lemma group_of_aggregate {pandas : Pandas} df rep :
  group_of df (aggregate (filter has_duct df) rep)
  = members (filter has_duct df) rep.
Proof.
  unfold group_of, members. apply filter_ext. intros r.
  unfold lex_eqb. rewrite agg_key_r. reflexivity.
Qed.



Lemma ForallOrdPairs_perm {A} (R : A -> A -> Prop) l l' :
  (forall a b, R a b -> R b a) ->
  Permutation l l' -> ForallOrdPairs R l -> ForallOrdPairs R l'.
Proof.
  intros S P. induction P as [|x l l' P IH|x y l|l l' l'' P1 IH1 P2 IH2]; intros H.
  - constructor.
  - inversion H; subst. constructor; auto.
    eapply Permutation_Forall; eauto.
  - inversion H as [|? ? F1 H1]; subst. inversion H1 as [|? ? F2 H2]; subst.
    inversion F1; subst. repeat constructor; auto.
  - auto.
Qed.

Lemma ForallOrdPairs_map {A B} (f : A -> B) (R : A -> A -> Prop) (Q : B -> B -> Prop) l :
  (forall a b, R a b -> Q (f a) (f b)) ->
  ForallOrdPairs R l -> ForallOrdPairs Q (map f l).
Proof.
  intros H. induction 1 as [|x l F P IH]; simpl; constructor; auto.
  apply Forall_map. eapply Forall_impl; [|exact F]. intros; auto.
Qed.

Lemma distinct_by_sym {A} (by_ : A -> list skey) a b :
  distinct_by by_ a b -> distinct_by by_ b a.
Proof. unfold distinct_by. rewrite lex_eqb_sym. auto. Qed.



(** ** The master sheet *)












Lemma map_fst_combine {A B C} (f : A -> C) (l : list A) (l' : list B) :
  length l = length l' ->
  map (fun p => f (fst p)) (combine l l') = map f l.
Proof.
  revert l'. induction l as [|x l IH]; intros [|y l'] H; simpl in *;
    try discriminate; auto.
  f_equal. apply IH. lia.
Qed.

Lemma format_date_col_key3 {pandas : Pandas} c out :
  map key3 (format_date_col c out) = map key3 out.
Proof.
  unfold format_date_col. destruct out as [|m0 out0]; auto.
  set (out := m0 :: out0).
  destruct (is_some (front c (m_front m0))); auto.
  match goal with |- context [existsb is_some ?p] => set (parsed := p) end.
  destruct (existsb is_some parsed); auto.
  rewrite map_map.
  assert (L : length out = length parsed).
  { unfold parsed, parse_dates. rewrite !length_map. reflexivity. }
  exact (map_fst_combine key3 out parsed L).
Qed.

Lemma format_date_cols_key3 {pandas : Pandas} cs : forall out,
  map key3 (format_date_cols out cs) = map key3 out.
Proof.
  unfold format_date_cols.
  induction cs as [|c cs IH]; intros out; simpl; auto.
  rewrite IH. apply format_date_col_key3.
Qed.




(** ** The loader *)

Lemma read_all_spec files : forall all_rows errors,
  read_all files all_rows errors
  = (all_rows ++ sheets_of files, errors ++ errors_of files).
Proof.
  induction files as [|uf rest IH]; intros all_rows errors; simpl.
  - rewrite !app_nil_r. reflexivity.
  - unfold sheets_of, errors_of in *. simpl.
    destruct (read_excel uf) as [e|xls]; rewrite IH, <- ?app_assoc; reflexivity.
Qed.


Lemma errors_of_app f1 f2 : errors_of (f1 ++ f2) = errors_of f1 ++ errors_of f2.
Proof. unfold errors_of. apply flat_map_app. Qed.

(** The loader, by the sheets that could be read. *)
Lemma load_by_sheets {pandas : Pandas} files :
  load_uploaded_excels files =
  match sheets_of files with
  | [] => Return (Frame [] [], errors_of files)
  | _ :: _ =>
      let cols := strip_columns (concat_columns (sheets_of files)) in
      match missing_cols cols with
      | _ :: _ => Raise (ValueError (missing_message (missing_cols cols)))
      | [] => Return (Frame (derived_columns cols)
                            (derive cols (map strip_keys (concat_rows (sheets_of files)))),
                      errors_of files)
      end
  end.
Proof.
  unfold load_uploaded_excels. rewrite read_all_spec. simpl.
  destruct (sheets_of files) as [|s l]; [reflexivity|]. cbv zeta.
  destruct (missing_cols (strip_columns (concat_columns (s :: l)))); reflexivity.
Qed.

Lemma join_holds (sep : text) (f : text -> text) c l :
  In c l -> substring (f c) (join sep (map f l)).
Proof.
  unfold substring. induction l as [|x l IH]; [intros []|].
  intros [->|H].
  - destruct l as [|y l]; simpl.
    + exists [], []. rewrite app_nil_r. reflexivity.
    + exists [], (sep ++ join sep (map f (y :: l))). reflexivity.
  - destruct (IH H) as (pre & post & E). destruct l as [|y l]; [destruct H|].
    exists (f x ++ sep ++ pre), post.
    change (join sep (map f (x :: y :: l)))
      with (f x ++ sep ++ join sep (map f (y :: l))).
    rewrite E, <- !app_assoc. reflexivity.
Qed.

Lemma substring_within (p a s b : text) :
  substring p s -> substring p (a ++ s ++ b).
Proof.
  intros (pre & post & ->). exists (a ++ pre), (post ++ b).
  rewrite <- !app_assoc. reflexivity.
Qed.

Lemma message_names missing c :
  In c missing -> substring (quote ++ c ++ quote) (missing_message missing).
Proof.
  intros H. unfold missing_message, repr_list.
  rewrite <- (app_nil_r (_ ++ _ ++ ("]"%string : text))).
  apply substring_within, substring_within.
  apply (join_holds comma (fun s => quote ++ s ++ quote) c missing H).
Qed.

(** C7. When the unified table has been built from the sheets of the files
    and its column names trimmed, and a required column is absent, the loader
    raises the error that names the missing required columns in place of
    returning a table, and the page stops on that message: no derived column
    and no report is produced. *)
Theorem missing_columns_fail {pandas : Pandas} (files : list upload)
        (unit_sel vendor_sel : list text) :
  let cols := strip_columns (concat_columns (sheets_of files)) in
  let missing := missing_cols cols in
  sheets_of files <> [] ->
  (exists c, In c REQUIRED_COLS /\ ~ In c cols) ->
  load_uploaded_excels files = Raise (ValueError (missing_message missing)) /\
  app files unit_sel vendor_sel = Error (missing_message missing) /\
  (forall c, In c missing <-> In c REQUIRED_COLS /\ ~ In c cols) /\
  (forall c, In c missing ->
             substring (quote ++ c ++ quote) (missing_message missing)).
Proof.
  intros cols missing Hs (c0 & Hreq & Habs).
  assert (Hm : forall c, In c missing <-> In c REQUIRED_COLS /\ ~ In c cols).
  { intros c. unfold missing, missing_cols. rewrite filter_In, negb_true_iff.
    split; intros [H1 H2]; split; auto.
    - intros Hin. apply mem_in in Hin. congruence.
    - destruct (mem c cols) eqn:E; auto. exfalso. apply H2, mem_in, E. }
  assert (Hne : missing <> []).
  { intros E. assert (H : In c0 missing) by (apply Hm; auto).
    rewrite E in H. destruct H. }
  assert (Hl : load_uploaded_excels files
               = Raise (ValueError (missing_message missing))).
  { rewrite load_by_sheets. destruct (sheets_of files); [congruence|].
    cbv zeta. fold cols. fold missing. destruct missing; [congruence | reflexivity]. }
  split; [exact Hl|]. split; [|split; [exact Hm|]].
  - unfold app. destruct files as [|uf rest]; [contradiction Hs; reflexivity|].
    rewrite Hl. reflexivity.
  - intros c. apply message_names.
Qed.

Lemma missing_columns_fail_witness :
  app (pandas := example_pandas) [short_file] [] []
  = Error "Missing columns: ['Vendor Name', 'PO No', 'Package Code of Description', 'DU Description', 'Total Weight', 'Modified On', 'Package Code of MR']"%string.
Proof.
  assert (H1 : sheets_of [short_file] <> []) by discriminate.
  assert (H2 : exists c, In c REQUIRED_COLS /\
                 ~ In c (strip_columns (concat_columns (sheets_of [short_file])))).
  { exists ("PO No"%string : text). split.
    - right; left; reflexivity.
    - intros [H|[H|[]]]; discriminate H. }
  pose proof (missing_columns_fail (pandas := example_pandas)
                [short_file] [] [] H1 H2) as (_ & H & _).
  vm_compute in H. vm_compute. exact H.
Defined.

(** ** Unreadable files *)



Lemma load_errors {pandas : Pandas} files big errors :
  load_uploaded_excels files = Return (big, errors) -> errors = errors_of files.
Proof.
  rewrite load_by_sheets. destruct (sheets_of files) as [|s l].
  - intros H. inversion H. reflexivity.
  - cbv zeta. destruct (missing_cols _); intros H; inversion H. reflexivity.
Qed.





(** ** Two runs *)


Lemma cache_find_hit files (c : cache) v :
  cache_find files ((files, v) :: c) = Some v.
Proof.
  simpl. destruct (list_eq_dec upload_eq_dec files files); congruence.
Qed.






(** * Further properties of the helpers *)

(** ** [extract_duct_no] *)




Lemma upper_char_idem c : upper_char (upper_char c) = upper_char c.
Proof. destruct c as [[] [] [] [] [] [] [] []]; reflexivity. Qed.

Lemma upper_idem s : upper (upper s) = upper s.
Proof.
  unfold upper. rewrite map_map. apply map_ext. apply upper_char_idem.
Qed.

Lemma upper_char_paren c :
  Ascii.eqb (upper_char c) "(" = Ascii.eqb c "(".
Proof. destruct c as [[] [] [] [] [] [] [] []]; reflexivity. Qed.

Lemma before_first_upper s :
  before_first "(" (upper s) = upper (before_first "(" s).
Proof.
  induction s as [|x t IH]; simpl; auto.
  rewrite upper_char_paren. destruct (Ascii.eqb x "("); simpl; congruence.
Qed.

Lemma lstrip_upper s :
  lstrip_by is_space (upper s) = upper (lstrip_by is_space s).
Proof.
  induction s as [|x t IH]; simpl; auto.
  rewrite upper_char_space. destruct (is_space x); auto.
Qed.

Lemma upper_rev s : upper (rev s) = rev (upper s).
Proof. unfold upper. apply map_rev. Qed.

Lemma strip_upper s : strip (upper s) = upper (strip s).
Proof.
  unfold strip, strip_by, rstrip_by.
  rewrite lstrip_upper, <- upper_rev, lstrip_upper, upper_rev. reflexivity.
Qed.

(** X2. [extract_duct_no] does not depend on the case of the letters of the
    code. *)
Theorem extract_duct_no_case_insensitive (s : text) :
  extract_duct_no (Str (upper s)) = extract_duct_no (Str s).
Proof.
  unfold extract_duct_no. rewrite !hd_split.
  rewrite before_first_upper, strip_upper, upper_idem. reflexivity.
Qed.

Lemma before_first_app c s t :
  before_first c (before_first c s ++ c :: t) = before_first c s.
Proof.
  induction s as [|x r IH]; simpl.
  - rewrite Ascii.eqb_refl. reflexivity.
  - destruct (Ascii.eqb x c) eqn:E; simpl.
    + rewrite Ascii.eqb_refl. reflexivity.
    + rewrite E, IH. reflexivity.
Qed.

(** X3. What follows the first opening parenthesis of a code is ignored:
    the code cut there, with any text in parentheses put after it, has the
    duct number of the code. *)
Theorem extract_duct_no_ignores_parenthesis (s t : text) :
  extract_duct_no (Str (before_first "(" s ++ "("%char :: t))
  = extract_duct_no (Str s).
Proof.
  unfold extract_duct_no. rewrite !hd_split, before_first_app. reflexivity.
Qed.

(** ** [extract_unit_wbs] *)

Lemma split_no_sep c s : Forall (fun seg => ~ In c seg) (split c s).
Proof.
  induction s as [|x t IH]; simpl.
  - constructor; auto.
  - destruct (Ascii.eqb x c) eqn:E.
    + constructor; auto.
    + destruct (split c t) as [|h r].
      * constructor; auto. intros [H|[]]. subst. rewrite Ascii.eqb_refl in E.
        discriminate.
      * inversion IH; subst. constructor; auto.
        intros [H|H]; auto. subst. rewrite Ascii.eqb_refl in E. discriminate.
Qed.

Lemma split_not_nil c s : split c s <> [].
Proof.
  destruct s as [|x t]; simpl; [discriminate|].
  destruct (Ascii.eqb x c); [discriminate|].
  destruct (split c t); discriminate.
Qed.

(** The first segment of a text that does not start with the separator is
    empty only if the text is. *)
Lemma split_head c x t p0 rest :
  Ascii.eqb x c = false -> split c (x :: t) = p0 :: rest -> p0 <> [].
Proof.
  simpl. intros E. rewrite E. destruct (split c t); intros H; inversion H;
    discriminate.
Qed.

Lemma rstrip_prefix p s : exists t, s = rstrip_by p s ++ t.
Proof.
  unfold rstrip_by.
  assert (H : forall l, exists t, l = t ++ lstrip_by p l).
  { induction l as [|x l IH]; simpl.
    - exists []. reflexivity.
    - destruct (p x).
      + destruct IH as (t & E). exists (x :: t). simpl. congruence.
      + exists []. reflexivity. }
  destruct (H (rev s)) as (t & E). exists (rev t).
  rewrite <- rev_app_distr, <- E, rev_involutive. reflexivity.
Qed.

(** A stripped text does not start with a stripped character. *)
Lemma strip_by_first p s c t : strip_by p s = c :: t -> p c = false.
Proof.
  unfold strip_by. intros H.
  destruct (rstrip_prefix p (lstrip_by p s)) as (r & E).
  rewrite H in E. simpl in E. eapply lstrip_head. exact E.
Qed.

(** X4. A Unit No that [extract_unit_wbs] returns is not empty and holds no
    hyphen; a WBS code that it returns is the unit, one hyphen and a segment
    without hyphen. *)
Theorem extract_unit_wbs_shape (v : pyval) (u : text) (w : pyval) :
  extract_unit_wbs v = (Str u, w) ->
  u <> [] /\ ~ In "-"%char u /\
  (forall wbs, w = Str wbs ->
     exists p1, wbs = u ++ hyphen ++ p1 /\ ~ In "-"%char p1).
Proof.
  destruct v as [s| |]; simpl; try discriminate.
  pose proof (split_no_sep "-" (strip_chars hyphen (strip s))) as Hn.
  destruct (split "-" (strip_chars hyphen (strip s))) as [|p0 [|p1 rest]] eqn:E.
  - discriminate.
  - destruct p0 as [|x p0]; intros H; inversion H; subst.
    inversion Hn; subst. repeat split; auto; discriminate.
  - intros H. inversion H; subst. inversion Hn as [|? ? H0 Hr]; subst.
    inversion Hr; subst. split; [|split; auto].
    + destruct (strip_chars hyphen (strip s)) as [|x t] eqn:Es.
      * simpl in E. discriminate.
      * apply (split_head "-" x t u (p1 :: rest)); auto.
        unfold strip_chars in Es. apply strip_by_first in Es.
        simpl in Es. rewrite orb_false_r in Es. exact Es.
    + intros wbs Hw. inversion Hw. eauto.
Qed.

Lemma extract_unit_wbs_shape_witness :
  ("U1"%string : text) <> [] /\ ~ In "-"%char ("U1"%string : text) /\
  (forall wbs, Str "U1-WBS20"%string = Str wbs ->
     exists p1, wbs = ("U1"%string : text) ++ hyphen ++ p1 /\ ~ In "-"%char p1).
Proof.
  apply (extract_unit_wbs_shape (Str " -U1-WBS20-XYZ- "%string)).
  reflexivity.
Defined.

(** ** The prefix and the key of a duct group *)

Lemma existsb_perm {A} (f : A -> bool) l l' :
  Permutation l l' -> existsb f l = existsb f l'.
Proof.
  intros P. destruct (existsb f l) eqn:E; symmetry.
  - apply existsb_exists in E. destruct E as (x & Hx & Hf).
    apply existsb_exists. exists x. split; auto.
    eapply Permutation_in; eauto.
  - apply not_true_is_false. intros E'. apply existsb_exists in E'.
    destruct E' as (x & Hx & Hf).
    assert (existsb f l = true).
    { apply existsb_exists. exists x. split; auto.
      eapply Permutation_in; [symmetry|]; eauto. }
    congruence.
Qed.

(** X5. The prefix of a block depends only on the descriptions that are not
    null, taken in upper case and in any order: null descriptions, the case
    of the letters and the order of the rows do not change it. *)
Theorem detect_prefix_order_independent (columns : list text)
        (group group' : list pyval) :
  Permutation (dropna_upper group) (dropna_upper group') ->
  detect_duct_prefix_for_block columns group
  = detect_duct_prefix_for_block columns group'.
Proof.
  intros P. unfold detect_duct_prefix_for_block.
  destruct (negb (mem DU_Description columns)); auto.
  cbv zeta.
  rewrite (existsb_perm (fun u => is_some (search false RE_AB_CODE u)) _ _ P).
  rewrite (existsb_perm (fun u => is_some (search false RE_GB_CODE u)) _ _ P).
  rewrite (existsb_perm
             (fun u => is_some (search true RE_PANEL_TAG u) && contains AB u) _ _ P).
  rewrite (existsb_perm
             (fun u => is_some (search true RE_PANEL_TAG u) && contains GB u) _ _ P).
  reflexivity.
Qed.

Lemma detect_prefix_order_independent_witness :
  detect_duct_prefix_for_block [DU_Description]
    [Str "gb 777"%string; NaN; Str "Panel AB"%string]
  = detect_duct_prefix_for_block [DU_Description]
    [Str "PANEL ab"%string; Str "GB 777"%string].
Proof.
  apply detect_prefix_order_independent.
  apply perm_swap.
Defined.




(** ** [format_date_cols] *)








(** ** More on the loader *)

(** X8. When no file gives a sheet with rows (every file is unreadable, or
    holds empty sheets only), the loader does not check the columns: it
    returns the empty table with the errors of the unreadable files, and the
    page stops on the warning that no usable data was found. *)
Theorem load_nothing_usable {pandas : Pandas} (files : list upload)
        (unit_sel vendor_sel : list text) :
  files <> [] ->
  sheets_of files = [] ->
  load_uploaded_excels files = Return (Frame [] [], errors_of files) /\
  app files unit_sel vendor_sel
  = Warning (errors_of files) "No usable data found in the uploaded files."%string.
Proof.
  intros Hf Hs.
  assert (Hl : load_uploaded_excels files = Return (Frame [] [], errors_of files)).
  { rewrite load_by_sheets, Hs. reflexivity. }
  split; auto. unfold app. destruct files; [congruence|].
  rewrite Hl. reflexivity.
Qed.

Lemma load_nothing_usable_witness :
  app (pandas := example_pandas)
      [bad_file; Upload None (inr [Sheet example_cols []])] [] []
  = Warning [(("notes.xlsx"%string : text), ("File is not a zip file"%string : text))]
            "No usable data found in the uploaded files."%string.
Proof.
  apply (load_nothing_usable (pandas := example_pandas)
           [bad_file; Upload None (inr [Sheet example_cols []])] [] []).
  - discriminate.
  - reflexivity.
Defined.

(** X9. The list of errors that the loader returns holds the unreadable
    files and nothing else: a pair is in it exactly when it is the name (or
    "uploaded.xlsx" for a file without name) and the message of a file that
    raised on reading. *)
Theorem load_errors_exact {pandas : Pandas} (files : list upload)
        (big : frame) (errors : list (text * text)) (n e : text) :
  load_uploaded_excels files = Return (big, errors) ->
  (In (n, e) errors <->
   exists uf, In uf files /\ read_excel uf = inl e /\
              n = match uf_name uf with Some x => x | None => default_name end) /\
  length errors
  = length (filter (fun uf => match read_excel uf with
                              | inl _ => true | inr _ => false end) files).
Proof.
  intros H. rewrite (load_errors _ _ _ H). split.
  - unfold errors_of. rewrite in_flat_map. split.
    + intros (uf & Hin & Hp). exists uf. split; auto.
      destruct (read_excel uf) as [e'|xls]; [|destruct Hp].
      destruct Hp as [Hp|[]]. inversion Hp; subst. auto.
    + intros (uf & Hin & Hr & ->). exists uf. split; auto.
      rewrite Hr. left. reflexivity.
  - unfold errors_of. clear H. induction files as [|uf rest IH]; simpl; auto.
    destruct (read_excel uf); simpl; congruence.
Qed.

Lemma load_errors_exact_witness :
  In (("notes.xlsx"%string : text), ("File is not a zip file"%string : text))
     [(("notes.xlsx"%string : text), ("File is not a zip file"%string : text))] <->
  exists uf, In uf [good_file; bad_file] /\
             read_excel uf = inl ("File is not a zip file"%string : text) /\
             ("notes.xlsx"%string : text)
             = match uf_name uf with Some x => x | None => default_name end.
Proof.
  apply (load_errors_exact (pandas := example_pandas) [good_file; bad_file]
           (Frame (derived_columns example_cols)
                  (derive (pandas := example_pandas) example_cols
                     (map strip_keys (concat_rows (sheets_of [good_file; bad_file])))))
           [(("notes.xlsx"%string : text), ("File is not a zip file"%string : text))]).
  reflexivity.
Defined.







(** ** More on the detailed summary *)

Lemma existsb_eqb_l a b seen :
  lex_eqb a b = true ->
  existsb (lex_eqb a) seen = existsb (lex_eqb b) seen.
Proof.
  intros H. induction seen as [|k t IH]; simpl; auto.
  rewrite (lex_eqb_l a b k H), IH. reflexivity.
Qed.

Lemma list_sum_perm l l' : Permutation l l' -> list_sum l = list_sum l'.
Proof.
  induction 1; simpl; lia.
Qed.

Section Counting.
Variable A : Type.
Variable by_ : A -> list skey.

Lemma class_size_cons_other l x rep :
  lex_eqb (by_ x) (by_ rep) = false ->
  class_size by_ (x :: l) rep = class_size by_ l rep.
Proof. unfold class_size. simpl. intros E. rewrite E. reflexivity. Qed.

Lemma sum_ext_in (f g : A -> nat) l :
  (forall x, In x l -> f x = g x) ->
  list_sum (map f l) = list_sum (map g l).
Proof.
  induction l as [|y t IH]; simpl; intros H; [reflexivity|].
  rewrite (H y (or_introl eq_refl)), IH; auto.
Qed.

Lemma unseen_split x seen l :
  existsb (lex_eqb (by_ x)) seen = false ->
  length (filter (unseen by_ seen) l)
  = class_size by_ l x + length (filter (unseen by_ (by_ x :: seen)) l).
Proof.
  intros Hx. unfold class_size. induction l as [|r t IH]; simpl; auto.
  assert (Hu : unseen by_ (by_ x :: seen) r
               = negb (lex_eqb (by_ r) (by_ x)) && unseen by_ seen r).
  { unfold unseen. simpl. rewrite negb_orb. reflexivity. }
  rewrite Hu.
  destruct (lex_eqb (by_ r) (by_ x)) eqn:E; simpl.
  - assert (H : unseen by_ seen r = true).
    { unfold unseen. rewrite (existsb_eqb_l _ _ seen E), Hx. reflexivity. }
    rewrite H. simpl. lia.
  - destruct (unseen by_ seen r); simpl; lia.
Qed.

(** The groups of the first rows cover every row that is not of a class
    seen before, once. *)
Lemma first_of_groups_count l : forall seen,
  list_sum (map (class_size by_ l) (first_of_groups by_ l seen))
  = length (filter (unseen by_ seen) l).
Proof.
  induction l as [|x t IH]; intros seen; simpl; auto.
  destruct (existsb (lex_eqb (by_ x)) seen) eqn:E.
  - unfold unseen at 1. rewrite E. simpl. rewrite <- IH.
    apply sum_ext_in. intros rep Hrep.
    apply class_size_cons_other.
    apply first_of_groups_in in Hrep. destruct Hrep as [_ Hrep].
    destruct (lex_eqb (by_ x) (by_ rep)) eqn:Ex; auto.
    rewrite (existsb_eqb_l _ _ seen Ex) in E. congruence.
  - unfold unseen at 1. rewrite E. simpl.
    rewrite (unseen_split x seen t E).
    rewrite <- (IH (by_ x :: seen)).
    assert (Hx : class_size by_ (x :: t) x = S (class_size by_ t x)).
    { unfold class_size. simpl. rewrite lex_eqb_refl. reflexivity. }
    rewrite Hx. simpl. f_equal. f_equal.
    apply sum_ext_in. intros rep Hrep.
    apply class_size_cons_other.
    apply first_of_groups_in in Hrep. destruct Hrep as [_ Hrep].
    simpl in Hrep. apply orb_false_iff in Hrep. destruct Hrep as [Hrep _].
    rewrite lex_eqb_sym. exact Hrep.
Qed.

Lemma distinct_unique (l : list A) a b :
  ForallOrdPairs (distinct_by by_) l -> In a l -> In b l ->
  lex_eqb (by_ a) (by_ b) = true -> a = b.
Proof.
  induction 1 as [|x l F P IH]; intros Ha Hb E; [destruct Ha|].
  destruct Ha as [<-|Ha], Hb as [<-|Hb]; auto.
  - pose proof (proj1 (Forall_forall _ _) F b Hb) as D.
    unfold distinct_by in D. congruence.
  - pose proof (proj1 (Forall_forall _ _) F a Ha) as D.
    unfold distinct_by in D. rewrite lex_eqb_sym in D. congruence.
Qed.
End Counting.

Lemma summarize_distinct {pandas : Pandas} df :
  ForallOrdPairs (distinct_by agg_key) (summarize_by_duct_vendor_po df).
Proof.
  unfold summarize_by_duct_vendor_po.
  eapply ForallOrdPairs_perm.
  - apply distinct_by_sym.
  - symmetry. apply sort_values_perm.
  - eapply ForallOrdPairs_map with (R := distinct_by group_key).
    + intros a b. unfold distinct_by, lex_eqb.
      rewrite agg_key_l, agg_key_r. auto.
    + eapply ForallOrdPairs_perm.
      * apply distinct_by_sym.
      * symmetry. apply sort_values_perm.
      * apply first_of_groups_distinct.
Qed.

(** X11. The detailed summary counts every kept row once: the groups of its
    rows have together as many rows as the table has rows with Duct No and
    Duct Key, and no row is in the group of two output rows. *)
Theorem summarize_counts_once {pandas : Pandas} (df : list row) :
  let out := summarize_by_duct_vendor_po df in
  list_sum (map (fun a => length (group_of df a)) out)
  = length (filter has_duct df) /\
  (forall a b r, In a out -> In b out ->
     In r (group_of df a) -> In r (group_of df b) -> a = b).
Proof.
  intros out. split.
  - unfold out, summarize_by_duct_vendor_po.
    set (filt := filter has_duct df).
    set (reps := first_of_groups group_key filt []).
    rewrite (list_sum_perm _ _
               (Permutation_map _ (sort_values_perm _ summary_order _))).
    rewrite map_map.
    rewrite (map_ext _ (class_size group_key filt)).
    + rewrite (list_sum_perm _ _
                 (Permutation_map _ (sort_values_perm _ group_key reps))).
      unfold reps. rewrite first_of_groups_count.
      unfold unseen. simpl. f_equal. clear. induction filt; simpl; congruence.
    + intros rep. unfold filt. rewrite group_of_aggregate. reflexivity.
  - intros a b r Ha Hb Hra Hrb.
    apply (distinct_unique _ agg_key out a b); auto.
    + apply summarize_distinct.
    + unfold group_of in *. apply filter_In in Hra, Hrb.
      destruct Hra as [_ Hra], Hrb as [_ Hrb].
      rewrite <- (lex_eqb_l _ _ (agg_key b) Hra). exact Hrb.
Qed.

Lemma summarize_counts_once_witness :
  list_sum (map (fun a => length (group_of example_df a))
                (summarize_by_duct_vendor_po (pandas := example_pandas) example_df))
  = length (filter has_duct example_df).
Proof.
  apply (summarize_counts_once (pandas := example_pandas) example_df).
Defined.

(** ** More on the two reports *)

Lemma summarize_in {pandas : Pandas} df a :
  In a (summarize_by_duct_vendor_po df) ->
  exists rep, In rep (filter has_duct df) /\
              a = aggregate (filter has_duct df) rep.
Proof.
  unfold summarize_by_duct_vendor_po. rewrite sort_values_in, in_map_iff.
  intros (rep & <- & H). apply sort_values_in in H.
  apply first_of_groups_in in H. destruct H as [H _]. eauto.
Qed.

Lemma master_key3 {pandas : Pandas} (df : frame) :
  map key3 (build_master_sheet df)
  = map (fun r => (Duct_Key r, Unit_No r, WBS_Code r)) (master_rows (rows df)).
Proof.
  unfold build_master_sheet. rewrite format_date_cols_key3, map_map. reflexivity.
Qed.

Lemma master_rows_in rows r :
  In r (master_rows rows) <-> In r rows /\ has_duct r = true.
Proof.
  unfold master_rows. rewrite sort_values_in, filter_In. unfold has_duct.
  rewrite (andb_comm (notna (Duct_Key r))). reflexivity.
Qed.

(** X12. In both reports the column Duct No is never null: every row of
    the detailed summary and every row of the master sheet carries the Duct
    Key of a row of the table that has a Duct No and a Duct Key, the master
    sheet with the Unit No and WBS Code of that row. *)
Theorem reports_have_duct_no {pandas : Pandas} (df : frame) :
  (forall a, In a (summarize_by_duct_vendor_po (rows df)) ->
     notna (a_Duct_No a) = true /\
     exists r, In r (rows df) /\ notna (Duct_No r) = true /\
               a_Duct_No a = Duct_Key r) /\
  (forall m, In m (build_master_sheet df) ->
     notna (m_Duct_No m) = true /\
     exists r, In r (rows df) /\ notna (Duct_No r) = true /\
               m_Duct_No m = Duct_Key r /\ m_Unit_No m = Unit_No r /\
               m_WBS_Code m = WBS_Code r).
Proof.
  split.
  - intros a Ha. apply summarize_in in Ha. destruct Ha as (rep & Hrep & ->).
    apply filter_In in Hrep. destruct Hrep as [Hin Hd].
    unfold has_duct in Hd. apply andb_true_iff in Hd. destruct Hd as [Hn Hk].
    simpl. destruct (Duct_Key rep) as [k| |] eqn:E; try discriminate.
    split; auto. exists rep. rewrite E. auto.
  - intros m Hm. apply (in_map key3) in Hm. rewrite master_key3 in Hm.
    apply in_map_iff in Hm. destruct Hm as (r & E & Hr).
    apply master_rows_in in Hr. destruct Hr as [Hin Hd].
    unfold has_duct in Hd. apply andb_true_iff in Hd. destruct Hd as [Hn Hk].
    unfold key3 in E. inversion E as [[E1 E2 E3]].
    split; [congruence|]. exists r. auto.
Qed.

Lemma reports_have_duct_no_witness :
  notna (a_Duct_No example_agg) = true /\
  exists r, In r (rows (Frame example_cols example_df)) /\
            notna (Duct_No r) = true /\ a_Duct_No example_agg = Duct_Key r.
Proof.
  apply (proj1 (reports_have_duct_no (pandas := example_pandas)
                  (Frame example_cols example_df)) example_agg).
  left. reflexivity.
Defined.











(** ** The sidebar filters *)


Lemma options_nil {A} (f : A -> pyval) l :
  filter notna (map f l) = [] <-> forall r, In r l -> notna (f r) = false.
Proof.
  induction l as [|x t IH]; simpl.
  - split; [intros _ r [] | reflexivity].
  - destruct (notna (f x)) eqn:E.
    + split; [discriminate|]. intros H. specialize (H x (or_introl eq_refl)).
      congruence.
    + rewrite IH. split.
      * intros H r [<-|Hr]; auto.
      * intros H r Hr. apply H. right. exact Hr.
Qed.

Lemma isin_notna sel v : isin sel v = true -> notna v = true.
Proof. destruct v; simpl; auto. Qed.

Lemma filter_filter {A} (f g : A -> bool) l :
  filter f (filter g l) = filter (fun x => g x && f x) l.
Proof.
  induction l as [|x t IH]; simpl; auto.
  destruct (g x); simpl; [destruct (f x)|]; rewrite IH; reflexivity.
Qed.

Lemma apply_filters_cases (unit_sel vendor_sel : list text) (big : list row) :
  exists tmp,
    ((filter notna (map Unit_No big) = [] /\ tmp = big) \/
     (filter notna (map Unit_No big) <> [] /\
      tmp = filter (fun r => isin unit_sel (Unit_No r)) big)) /\
    ((filter notna (map vendor_of tmp) = [] /\
      apply_filters unit_sel vendor_sel big = tmp) \/
     (filter notna (map vendor_of tmp) <> [] /\
      apply_filters unit_sel vendor_sel big
      = filter (fun r => isin vendor_sel (vendor_of r)) tmp)).
Proof.
  unfold apply_filters, vendor_of.
  destruct (filter notna (map Unit_No big)) as [|u us].
  - exists big. split; [left; auto|].
    destruct (filter notna (map _ big)); [left | right]; split; auto; discriminate.
  - exists (filter (fun r => isin unit_sel (Unit_No r)) big).
    split; [right; split; [discriminate | reflexivity]|].
    destruct (filter notna (map _ (filter _ big))); [left | right]; split; auto;
      discriminate.
Qed.

(** X15. The two sidebar filters keep rows of the table in their order and
    add none.  As soon as one row of the table has a Unit No, every row
    shown has a Unit No of the selection, so the rows without Unit No are
    dropped whatever is selected; likewise for the vendor among the rows
    that pass the unit filter.  A row whose unit and vendor are both selected
    is always kept, and a table without any unit and vendor is not
    filtered. *)
Theorem apply_filters_spec (unit_sel vendor_sel : list text) (big : list row) :
  let df := apply_filters unit_sel vendor_sel big in
  (exists keep, df = filter keep big) /\
  ((exists r, In r big /\ notna (Unit_No r) = true) ->
   forall r, In r df -> isin unit_sel (Unit_No r) = true) /\
  ((exists r, In r df /\ notna (vendor_of r) = true) ->
   forall r, In r df -> isin vendor_sel (vendor_of r) = true) /\
  (forall r, In r big -> isin unit_sel (Unit_No r) = true ->
             isin vendor_sel (vendor_of r) = true -> In r df) /\
  ((forall r, In r big -> notna (Unit_No r) = false /\ notna (vendor_of r) = false) ->
   df = big).
Proof.
  intros df. unfold df.
  destruct (apply_filters_cases unit_sel vendor_sel big) as (tmp & Ht & Hr).
  set (res := apply_filters unit_sel vendor_sel big) in *.
  assert (Hsub : forall r, In r res -> In r tmp).
  { intros r. destruct Hr as [[_ ->]|[_ ->]]; auto. rewrite filter_In. tauto. }
  assert (Hsub' : forall r, In r tmp -> In r big).
  { intros r. destruct Ht as [[_ ->]|[_ ->]]; auto. rewrite filter_In. tauto. }
  split; [|split; [|split; [|split]]].
  - destruct Ht as [[_ Et]|[_ Et]], Hr as [[_ Er]|[_ Er]]; rewrite Er, Et.
    + exists (fun _ => true). clear. induction big; simpl; congruence.
    + eexists. reflexivity.
    + eexists. reflexivity.
    + eexists. apply filter_filter.
  - intros (r0 & Hin0 & Hn0) r Hin. apply Hsub in Hin.
    destruct Ht as [[E _]|[_ Et]].
    + rewrite options_nil in E. specialize (E r0 Hin0). congruence.
    + rewrite Et in Hin. apply filter_In in Hin. tauto.
  - intros (r0 & Hin0 & Hn0) r Hin.
    destruct Hr as [[E Er]|[_ Er]].
    + rewrite options_nil in E. rewrite Er in Hin0.
      specialize (E r0 Hin0). congruence.
    + rewrite Er in Hin. apply filter_In in Hin. tauto.
  - intros r Hin Hu Hv.
    assert (Hin' : In r tmp).
    { destruct Ht as [[_ ->]|[_ ->]]; auto. apply filter_In. auto. }
    destruct Hr as [[_ ->]|[_ ->]]; auto. apply filter_In. auto.
  - intros Hnone.
    destruct Ht as [[_ Et]|[E _]].
    + destruct Hr as [[_ Er]|[E _]]; [congruence|].
      exfalso. apply E. apply options_nil. intros r Hin. rewrite Et in Hin.
      apply Hnone. exact Hin.
    + exfalso. apply E. apply options_nil. intros r Hin. apply Hnone. exact Hin.
Qed.

Lemma apply_filters_spec_witness :
  In (nth 0 example_df (Row [] NaN NaN NaN NaN float_zero None))
     (apply_filters ["U1"%string : text] ["ACME"%string : text] example_df).
Proof.
  apply (proj1 (proj2 (proj2 (proj2 (apply_filters_spec ["U1"%string : text]
                                       ["ACME"%string : text] example_df))))).
  - left. reflexivity.
  - reflexivity.
  - reflexivity.
Defined.

(** ** The order of the detailed summary *)


Section Refine.
Variable A : Type.
Variables f g : A -> list skey.
Variable n : nat.
Hypothesis f_length : forall a, length (f a) = n.






End Refine.



(** ** Tables without duct numbers *)



